(** * SML: vectors and quaternions

    A shallow embedding of [sml/include/vec3.h] and of the quaternion header
    ([quat.h]) of the Simple Math Library, and the properties of the
    specification checked against it.

    The C++ classes are templates over the scalar type [T].  The embedding is
    generic over [T] in the same way: the arithmetic of [T] is a type class
    ([Scalar]), the square root and the trigonometric helpers of [common.h]
    are two further classes, and the development instantiates them at

    - [float], IEEE binary64, the arithmetic of [f64];
    - [u32], 32-bit unsigned integers, for the generic branch;
    - [R], the real line: the formulas of the [f32]/[f64] branch in exact
      arithmetic, before any rounding, overflow or underflow.

    Only member functions that compile for some [T] are embedded.  The
    headers also hold functions that are ill-formed once instantiated
    ([operator * (vec3<T>, T)], [vec3::project], [quat::operator *=],
    [quat::eulerAngles], [quat::axisangle], [quat::slerp]); they are given
    no definition here.

    A [vec3<T>] is the four-slot array [T v[4]] that the class declares, and
    a [quat<T>] is the four scalars [x, y, z, w] together with the two views
    ([xyz] and [v]) that its anonymous union lays over them. *)

From Stdlib Require Import Uint63 PrimFloat SpecFloat FloatOps.
From Stdlib Require Import Reals Lra Lia ZArith Zdiv QArith Qreals Bool List.
From Stdlib Require Import Setoid Morphisms.
From Stdlib Require Import RNsatz.

Set Implicit Arguments.

(** ** The scalar type [T] *)

(** What the headers use of [T]: the arithmetic operators, the comparisons,
    [static_cast<T>(literal)], and which branch of
    [if constexpr (std::is_same<T, f32>::value)] /
    [std::is_same<T, f64>::value] is compiled. *)
Class Scalar (T : Type) : Type := {
  add : T -> T -> T;
  sub : T -> T -> T;
  mul : T -> T -> T;
  div : T -> T -> T;
  neg : T -> T;
  ltb : T -> T -> bool;
  leb : T -> T -> bool;
  eqb : T -> T -> bool;
  lit : Q -> T;
  simd : bool
}.

(** The conversion of a [T] to [float] and back, as in
    [float mag = length()]. *)
Class Narrow (T : Type) : Type := { to_float : T -> T }.

(** The helpers of [common.h] that the embedded functions call: [sml::sqrt],
    [sml::sin], [sml::cos] and [constants::pi]. *)
Module Sml.
Class Sqrt (T : Type) : Type := { sqrt : T -> T }.

Class Trig (T : Type) : Type := {
  sin : T -> T;
  cos : T -> T;
  pi : T
}.
End Sml.

Declare Scope scalar_scope.
Delimit Scope scalar_scope with S.
Arguments lit {T _} q%_Q.
Infix "+" := add : scalar_scope.
Infix "-" := sub : scalar_scope.
Infix "*" := mul : scalar_scope.
Infix "/" := div : scalar_scope.
Notation "- x" := (neg x) : scalar_scope.
Infix "<?" := ltb : scalar_scope.
Infix "<=?" := leb : scalar_scope.
Infix "=?" := eqb : scalar_scope.
Notation "x >? y" := (ltb y x) (only parsing) : scalar_scope.
Notation "x >=? y" := (leb y x) (only parsing) : scalar_scope.
Notation "x !=? y" := (negb (eqb x y)) (at level 70) : scalar_scope.

(** *** The real line *)

(** Exact arithmetic.  The real line has no narrowing to [float], so it is
    no instance of [Narrow], and [x / 0] has no meaning on it: no statement
    below divides by zero. *)

Definition Rltb (x y : R) : bool := if Rlt_dec x y then true else false.
Definition Rleb (x y : R) : bool := if Rle_dec x y then true else false.
Definition Reqb (x y : R) : bool := if Req_dec_T x y then true else false.

Definition Rlit (q : Q) : R :=
  match Qden q with
  | 1%positive => IZR (Qnum q)
  | d => (IZR (Qnum q) / IZR (Zpos d))%R
  end.

#[export] Instance R_scalar : Scalar R := {
  add := Rplus; sub := Rminus; mul := Rmult; div := Rdiv; neg := Ropp;
  ltb := Rltb; leb := Rleb; eqb := Reqb;
  lit := Rlit;
  simd := true
}.

(** Modelled from the spec: the helpers of [common.h] on the real line are
    the functions they are named after. *)
#[export] Instance R_sqrt : Sml.Sqrt R := { Sml.sqrt := sqrt }.

#[export] Instance R_trig : Sml.Trig R := {
  Sml.sin := sin; Sml.cos := cos; Sml.pi := PI
}.

(** *** IEEE binary64 *)

Definition float_of_Z (z : Z) : float :=
  match z with
  | Z0 => PrimFloat.zero
  | Zpos _ => PrimFloat.of_uint63 (Uint63.of_Z z)
  | Zneg p => PrimFloat.opp (PrimFloat.of_uint63 (Uint63.of_Z (Zpos p)))
  end.

(** The value of a decimal literal: the quotient of two integers, rounded
    once. *)
Definition float_lit (q : Q) : float :=
  match Qden q with
  | 1%positive => float_of_Z (Qnum q)
  | d => PrimFloat.div (float_of_Z (Qnum q)) (float_of_Z (Zpos d))
  end.

(** Rounding to binary32 and back, the effect of [float mag = ...] on a
    [double]. *)
Definition float_to_f32 (x : float) : float :=
  match Prim2SF x with
  | S754_finite s m e =>
      SF2Prim (binary_normalize 24 128 (cond_Zopp s (Zpos m)) e s)
  | _ => x
  end.

#[export] Instance f64_scalar : Scalar float := {
  add := PrimFloat.add; sub := PrimFloat.sub; mul := PrimFloat.mul;
  div := PrimFloat.div; neg := PrimFloat.opp;
  ltb := PrimFloat.ltb; leb := PrimFloat.leb; eqb := PrimFloat.eqb;
  lit := float_lit;
  simd := true
}.

#[export] Instance f64_narrow : Narrow float :=
  { to_float := float_to_f32 }.

#[export] Instance f64_sqrt : Sml.Sqrt float :=
  { Sml.sqrt := PrimFloat.sqrt }.

(** *** 32-bit unsigned integers *)

Definition u32 : Type := Z.
Definition wrap32 (z : Z) : u32 := (z mod 2 ^ 32)%Z.

(** Division by zero is undefined in C++; [Z.div] gives [0] there, and no
    statement below divides integers. *)
#[export] Instance u32_scalar : Scalar u32 := {
  add := fun a b => wrap32 (a + b);
  sub := fun a b => wrap32 (a - b);
  mul := fun a b => wrap32 (a * b);
  div := fun a b => Z.div a b;
  neg := fun a => wrap32 (- a);
  ltb := Z.ltb; leb := Z.leb; eqb := Z.eqb;
  lit := fun q => wrap32 (Z.quot (Qnum q) (Zpos (Qden q)));
  simd := false
}.

(** ** vec3<T> *)

Module Vec3.
Section Defs.
Context {T : Type} `{Scalar T}.
Local Open Scope scalar_scope.

(** [union { struct { T x, y, z; }; T v[4]; }]: three components and the
    padding slot [v[3]]. *)
Record vec3 : Type := mk { x : T; y : T; z : T; pad : T }.

(** [set(x, y, z)] and [set(T v[3])] write the three components only. *)
Definition set (this : vec3) (x' y' z' : T) : vec3 := mk x' y' z' (pad this).

Definition zero (this : vec3) : vec3 := set this (lit 0) (lit 0) (lit 0).

(** [vec3(T x, T y, T z)]; every constructor ends with [v[3] = 0]. *)
Definition make (x' y' z' : T) : vec3 := mk x' y' z' (lit 0).

(** [vec3()]. *)
Definition new : vec3 := make (lit 0) (lit 0) (lit 0).

(** [explicit vec3(T v)]. *)
Definition splat (s : T) : vec3 := make s s s.

(** [vec3(const vec3&)] and [vec3(vec3&&)]: what a by-value parameter or a
    returned value holds. *)
Definition copy (other : vec3) : vec3 := make (x other) (y other) (z other).

(** [operator =]: [set(other.v)], the padding slot of the target stays. *)
Definition assign (this other : vec3) : vec3 :=
  set this (x other) (y other) (z other).

(** The compound operators.  On the [f32]/[f64] branch the four slots are
    loaded, combined and stored ([_mm_load_ps], [_mm_add_ps],
    [_mm_store_ps], ...); the generic branch touches [x], [y], [z]. *)
Definition compound (f : T -> T -> T) (this other : vec3) : vec3 :=
  if simd
  then mk (f (x this) (x other)) (f (y this) (y other))
          (f (z this) (z other)) (f (pad this) (pad other))
  else mk (f (x this) (x other)) (f (y this) (y other))
          (f (z this) (z other)) (pad this).

(** The same with [_mm_broadcast_ss(&other)] / [_mm256_set1_pd(other)]. *)
Definition compound_scalar (f : T -> T -> T) (this : vec3) (s : T) : vec3 :=
  if simd
  then mk (f (x this) s) (f (y this) s) (f (z this) s) (f (pad this) s)
  else mk (f (x this) s) (f (y this) s) (f (z this) s) (pad this).

Definition add_assign := compound add.
Definition sub_assign := compound sub.
Definition mul_assign := compound mul.
Definition div_assign := compound div.
Definition mul_assign_scalar := compound_scalar mul.
Definition div_assign_scalar := compound_scalar div.

(** [dot(vec3 other)].  The generic branch is
    [(x * other.x) + (y * other.y) + (z * other.z)].  The two vectorised
    branches are given no value: the [f64] branch reads 32 bits of a lane
    back as a [double], and the [f32] branch needs binary32 arithmetic,
    which no instance here has. *)
Definition dot (this other : vec3) : option T :=
  if simd
  then None
  else Some ((x this * x other) + (y this * y other) + (z this * z other)).

Definition lengthsquared (this : vec3) : T :=
  (x this * x this) + (y this * y this) + (z this * z this).

Definition length `{Sml.Sqrt T} (this : vec3) : T :=
  Sml.sqrt (lengthsquared this).

(** [normalize()]; [epsilon] is [constants::epsilon] of [common.h]. *)
Definition normalize `{Sml.Sqrt T} `{Narrow T} (epsilon : T) (this : vec3)
  : vec3 :=
  let mag := to_float (length this) in
  if mag >? epsilon
  then div_assign_scalar this (length this)
  else set this (lit 0) (lit 0) (lit 0).

Definition normalized `{Sml.Sqrt T} `{Narrow T} (epsilon : T) (this : vec3)
  : vec3 :=
  copy (normalize epsilon (make (x this) (y this) (z this))).

(** Modelled from the spec: [sml::min] of [common.h], the smaller of two
    scalars. *)
Definition sml_min (a b : T) : T := if b <? a then b else a.

(** Modelled from the spec: [sml::max] of [common.h], the larger of two
    scalars. *)
Definition sml_max (a b : T) : T := if a <? b then b else a.

(** [_mm_min_ps] and [_mm_max_ps] on one lane. *)
Definition lane_min (a b : T) : T := if a <? b then a else b.
Definition lane_max (a b : T) : T := if b <? a then a else b.

Definition lanes (f : T -> T -> T) (a b : vec3) : vec3 :=
  mk (f (x a) (x b)) (f (y a) (y b)) (f (z a) (z b)) (f (pad a) (pad b)).

Definition min (a b : vec3) : vec3 :=
  if simd
  then copy (lanes lane_min a b)
  else make (sml_min (x a) (x b)) (sml_min (y a) (y b)) (sml_min (z a) (z b)).

(** The generic branch reads [sml::max(a.x, b.y)] for the first
    component. *)
Definition max (a b : vec3) : vec3 :=
  if simd
  then copy (lanes lane_max a b)
  else make (sml_max (x a) (y b)) (sml_max (y a) (y b)) (sml_max (z a) (z b)).

Definition clamp (v a b : vec3) : vec3 := max a (min v b).

Definition cross (left right : vec3) : vec3 :=
  make (y left * z right - z left * y right)
       (z left * x right - x left * z right)
       (x left * y right - y left * x right).

(** The free operators take [left] and [right] by value and return [left]
    by value. *)
Definition op_add (left right : vec3) : vec3 :=
  copy (add_assign (copy left) (copy right)).
Definition op_sub (left right : vec3) : vec3 :=
  copy (sub_assign (copy left) (copy right)).
Definition op_mul (left right : vec3) : vec3 :=
  copy (mul_assign (copy left) (copy right)).
Definition op_div (left right : vec3) : vec3 :=
  copy (div_assign (copy left) (copy right)).

(** Modelled from the spec: unary minus on a [vec3<T>], used by the
    quaternion header and not declared in [vec3.h] either ("negates vector
    part"). *)
Definition negate (v : vec3) : vec3 := make (- x v) (- y v) (- z v).

Definition distance `{Sml.Sqrt T} (a b : vec3) : T := length (op_sub b a).

(** One lane of [_mm_cmpeq_ps] or [_mm_cmpneq_ps]: all ones when the
    comparison holds, all zeros when it does not. *)
Definition lane_mask (b : bool) : Z := if b then Z.ones 32 else 0%Z.

(** [_mm_testc_si128(a, b)]: 1 when [(~a) & b] has no bit set, lane by
    lane. *)
Definition testc (a b : list Z) : bool :=
  forallb (fun p => Z.eqb (Z.ldiff (snd p) (fst p)) 0) (combine a b).

Definition cmp_lanes (f : T -> T -> bool) (this other : vec3) : list Z :=
  map lane_mask
      (f (x this) (x other) :: f (y this) (y other)
       :: f (z this) (z other) :: f (pad this) (pad other) :: nil).

(** [operator ==].  On the [f32] branch the four slots are compared and
    the mask is tested against itself, [_mm_testc_si128(cmp.i, cmp.i)];
    the [f64] branch does the same on the slots it loads.  The generic
    branch is [x == other.x && y == other.y && z == other.z]. *)
Definition equal (this other : vec3) : bool :=
  if simd
  then let cmp := cmp_lanes eqb this other in testc cmp cmp
  else (x this =? x other) && (y this =? y other) && (z this =? z other).

(** [operator !=], with [_mm_cmpneq_ps] and the same test; the generic
    branch is [x != other.x || y != other.y || z != other.z]. *)
Definition not_equal (this other : vec3) : bool :=
  if simd
  then let cmp := cmp_lanes (fun a b => a !=? b) this other in testc cmp cmp
  else (x this !=? x other) || (y this !=? y other) || (z this !=? z other).
End Defs.
Arguments vec3 T : clear implicits.
End Vec3.

(** ** vec4<T> *)

(** [vec4.h] is not part of the sources.  The spec describes [vec4<T>] as
    the "4-component analog" of [vec3<T>], and its operations "as for
    vectors, applied to the 4-component representation"; the definitions
    follow the bodies of [vec3] with the fourth component added. *)
Module Vec4.
Section Defs.
Context {T : Type} `{Scalar T}.
Local Open Scope scalar_scope.

(** Modelled from the spec: the four components of [vec4<T>]; the class is
    missing from the sources. *)
Record vec4 : Type := mk { x : T; y : T; z : T; w : T }.

(** Modelled from the spec: [vec4::zero], missing from the sources. *)
Definition zero : vec4 := mk (lit 0) (lit 0) (lit 0) (lit 0).

(** Modelled from the spec: [vec4::dot], missing from the sources. *)
Definition dot (this other : vec4) : T :=
  (x this * x other) + (y this * y other) + (z this * z other)
  + (w this * w other).

(** Modelled from the spec: [vec4::lengthsquared], missing from the
    sources. *)
Definition lengthsquared (this : vec4) : T :=
  (x this * x this) + (y this * y this) + (z this * z this)
  + (w this * w this).

(** Modelled from the spec: [vec4::length], missing from the sources. *)
Definition length `{Sml.Sqrt T} (this : vec4) : T :=
  Sml.sqrt (lengthsquared this).

Definition lanes (f : T -> T -> T) (this other : vec4) : vec4 :=
  mk (f (x this) (x other)) (f (y this) (y other))
     (f (z this) (z other)) (f (w this) (w other)).

(** Modelled from the spec: [vec4::operator +=] and [vec4::operator -=],
    missing from the sources. *)
Definition add_assign := lanes add.
Definition sub_assign := lanes sub.

(** Modelled from the spec: [vec4::operator *= (const T)], missing from the
    sources. *)
Definition mul_assign_scalar (this : vec4) (s : T) : vec4 :=
  mk (x this * s) (y this * s) (z this * s) (w this * s).
End Defs.
Arguments vec4 T : clear implicits.
End Vec4.

(** ** quat<T> *)

Module Quat.
Section Defs.
Context {T : Type} `{Scalar T}.
Local Open Scope scalar_scope.

(** [union { struct { T x, y, z, w; }; struct { vec3<T> xyz; T s; };
    vec4<T> v; }]. *)
Record quat : Type := mk { x : T; y : T; z : T; w : T }.

(** The view [v]. *)
Definition v (q : quat) : Vec4.vec4 T := Vec4.mk (x q) (y q) (z q) (w q).
Definition of_v (u : Vec4.vec4 T) : quat :=
  mk (Vec4.x u) (Vec4.y u) (Vec4.z u) (Vec4.w u).

(** The view [xyz].  A [vec3<T>] is four slots wide, so the object [xyz]
    lies over all of [x, y, z, w]: its padding slot is [w]. *)
Definition xyz (q : quat) : Vec3.vec3 T := Vec3.mk (x q) (y q) (z q) (w q).

(** The four scalars after a member function of [vec3] has run on [xyz]
    in place. *)
Definition store_xyz (u : Vec3.vec3 T) : quat :=
  mk (Vec3.x u) (Vec3.y u) (Vec3.z u) (Vec3.pad u).

(** [xyz = value]: the copy assignment of [vec3] writes three slots. *)
Definition assign_xyz (q : quat) (value : Vec3.vec3 T) : quat :=
  store_xyz (Vec3.assign (xyz q) value).

Definition set_w (q : quat) (w' : T) : quat := mk (x q) (y q) (z q) w'.

(** [quat()]. *)
Definition new : quat := of_v Vec4.zero.

(** [quat(const vec3<T>& xyz, T w)]. *)
Definition make (value : Vec3.vec3 T) (w' : T) : quat :=
  mk (Vec3.x value) (Vec3.y value) (Vec3.z value) w'.

(** [set(const vec3<T>& xyz, T scalar)]. *)
Definition set (this : quat) (value : Vec3.vec3 T) (scalar : T) : quat :=
  set_w (assign_xyz this value) scalar.


(** [operator ==] and [operator !=]. *)
Definition equal (this other : quat) : bool :=
  Vec4.dot (v this) (v other) >? lit 0.999999.
Definition not_equal (this other : quat) : bool :=
  Vec4.dot (v this) (v other) <=? lit 0.999999.

Definition add_assign (this other : quat) : quat :=
  of_v (Vec4.add_assign (v this) (v other)).
Definition sub_assign (this other : quat) : quat :=
  of_v (Vec4.sub_assign (v this) (v other)).

Definition mul_assign_scalar (this : quat) (other : T) : quat :=
  of_v (Vec4.mul_assign_scalar (v this) other).

Definition lengthsquared (this : quat) : T := Vec4.lengthsquared (v this).
Definition dot (this other : quat) : T := Vec4.dot (v this) (v other).

Definition conjugate (this : quat) : quat :=
  let q := of_v (v this) in
  assign_xyz q (Vec3.negate (xyz q)).

(** [invert()].  [xyz *= -i] is [vec3::operator *= (const T)] run on the
    object [xyz], and [w *= i] follows. *)
Definition invert (this : quat) : quat :=
  let lengthSq := lengthsquared this in
  if lengthSq !=? lit 0
  then
    let i := lit 1 / lengthSq in
    let this1 := store_xyz (Vec3.mul_assign_scalar (xyz this) (- i)) in
    set_w this1 (w this1 * i)
  else this.

Definition inverse (this : quat) : quat := invert (of_v (v this)).

(** The free operators. *)
Definition op_add (left right : quat) : quat := add_assign left right.
Definition op_sub (left right : quat) : quat := sub_assign left right.

(** [operator * (quat<T> left, vec3<T> right)]: the rotation of a
    vector. *)
Definition rotate (left : quat) (right : Vec3.vec3 T) : Vec3.vec3 T :=
  let num := x left * lit 2 in
  let num2 := y left * lit 2 in
  let num3 := z left * lit 2 in
  let num4 := x left * num in
  let num5 := y left * num2 in
  let num6 := z left * num3 in
  let num7 := x left * num2 in
  let num8 := x left * num3 in
  let num9 := y left * num3 in
  let num10 := w left * num in
  let num11 := w left * num2 in
  let num12 := w left * num3 in
  Vec3.copy (Vec3.set Vec3.new
    ((lit 1 - (num5 + num6)) * Vec3.x right + (num7 - num12) * Vec3.y right
     + (num8 + num11) * Vec3.z right)
    ((num7 + num12) * Vec3.x right + (lit 1 - (num4 + num6)) * Vec3.y right
     + (num9 - num10) * Vec3.z right)
    ((num8 - num11) * Vec3.x right + (num9 + num10) * Vec3.y right
     + (lit 1 - (num4 + num5)) * Vec3.z right)).

Section WithSqrt.
Context `{Sml.Sqrt T}.

Definition length (this : quat) : T := Vec4.length (v this).

(** [normalize()]. *)
Definition normalize (this : quat) : quat :=
  let scale := lit 1 / length this in
  of_v (Vec4.mul_assign_scalar (v this) scale).

Definition normalized (this : quat) : quat := normalize (of_v (v this)).
End WithSqrt.

Section WithTrig.
Context `{Sml.Sqrt T} `{Sml.Trig T}.

(** Modelled from the spec: [constants::deg2rad] of [common.h], the factor
    from degrees to radians. *)
Definition deg2rad : T := Sml.pi / lit 180.

(** [euler(vec3<T> rotation)], in degrees. *)
Definition euler (rotation : Vec3.vec3 T) : quat :=
  let rotation := Vec3.mul_assign_scalar (Vec3.copy rotation) deg2rad in
  let yaw := Vec3.x rotation in
  let pitch := Vec3.y rotation in
  let roll := Vec3.z rotation in
  let rollOver2 := roll * lit 0.5 in
  let sinRollOver2 := Sml.sin rollOver2 in
  let cosRollOver2 := Sml.cos rollOver2 in
  let pitchOver2 := pitch * lit 0.5 in
  let sinPitchOver2 := Sml.sin pitchOver2 in
  let cosPitchOver2 := Sml.cos pitchOver2 in
  let yawOver2 := yaw * lit 0.5 in
  let sinYawOver2 := Sml.sin yawOver2 in
  let cosYawOver2 := Sml.cos yawOver2 in
  mk (cosYawOver2 * cosPitchOver2 * cosRollOver2
      + sinYawOver2 * sinPitchOver2 * sinRollOver2)
     (cosYawOver2 * cosPitchOver2 * sinRollOver2
      - sinYawOver2 * sinPitchOver2 * cosRollOver2)
     (cosYawOver2 * sinPitchOver2 * cosRollOver2
      + sinYawOver2 * cosPitchOver2 * sinRollOver2)
     (sinYawOver2 * cosPitchOver2 * cosRollOver2
      - cosYawOver2 * sinPitchOver2 * sinRollOver2).

Definition euler3 (x' y' z' : T) : quat := euler (Vec3.make x' y' z').

(** [frommatrix3]: [return quat();]. *)
Definition frommatrix3 {M : Type} (matrix : M) : quat := new.

End WithTrig.
End Defs.
Arguments quat T : clear implicits.
End Quat.

(** ** The vocabulary of the specification *)

Local Open Scope R_scope.

(** "conjugate / lengthsquared", the general inverse in the words of the
    spec. *)
Definition general_inverse {T : Type} `{Scalar T} (q : Quat.quat T)
  : Quat.quat T :=
  let c := Quat.conjugate q in
  let l := Quat.lengthsquared q in
  Quat.mk (div (Quat.x c) l) (div (Quat.y c) l) (div (Quat.z c) l)
          (div (Quat.w c) l).

Unset Implicit Arguments.

(** * Properties *)

(** ** Deciding comparisons on the real line *)

Lemma Rltb_true (a b : R) : Rltb a b = true <-> a < b.
Proof. unfold Rltb; destruct (Rlt_dec a b); split; intros; easy. Qed.

Lemma Rltb_false (a b : R) : Rltb a b = false <-> b <= a.
Proof. unfold Rltb; destruct (Rlt_dec a b); split; intros; try easy; lra. Qed.

Lemma Rleb_true (a b : R) : Rleb a b = true <-> a <= b.
Proof. unfold Rleb; destruct (Rle_dec a b); split; intros; easy. Qed.

Lemma Rleb_false (a b : R) : Rleb a b = false <-> b < a.
Proof. unfold Rleb; destruct (Rle_dec a b); split; intros; try easy; lra. Qed.

Lemma Reqb_true (a b : R) : Reqb a b = true <-> a = b.
Proof. unfold Reqb; destruct (Req_dec_T a b); split; intros; easy. Qed.

Lemma Reqb_false (a b : R) : Reqb a b = false <-> a <> b.
Proof. unfold Reqb; destruct (Req_dec_T a b); split; intros; easy. Qed.

Lemma Rleb_negb_Rltb (a b : R) : Rleb a b = negb (Rltb b a).
Proof.
  destruct (Rltb b a) eqn:E; cbn.
  - apply Rleb_false; now apply Rltb_true.
  - apply Rleb_true; now apply Rltb_false.
Qed.

(** Settles a comparison between two real terms once [lra] can order them. *)
Ltac rdecide :=
  match goal with
  | |- Rltb _ _ = true => apply Rltb_true
  | |- Rltb _ _ = false => apply Rltb_false
  | |- Rleb _ _ = true => apply Rleb_true
  | |- Rleb _ _ = false => apply Rleb_false
  | |- Reqb _ _ = true => apply Reqb_true
  | |- Reqb _ _ = false => apply Reqb_false
  end.

Lemma quat_ext (T : Type) (p q : Quat.quat T) :
  Quat.x p = Quat.x q -> Quat.y p = Quat.y q ->
  Quat.z p = Quat.z q -> Quat.w p = Quat.w q -> p = q.
Proof. destruct p, q; cbn; intros; subst; reflexivity. Qed.

Lemma vec3_ext (T : Type) (p q : Vec3.vec3 T) :
  Vec3.x p = Vec3.x q -> Vec3.y p = Vec3.y q ->
  Vec3.z p = Vec3.z q -> Vec3.pad p = Vec3.pad q -> p = q.
Proof. destruct p, q; cbn; intros; subst; reflexivity. Qed.

(** ** vec3: min, max, clamp *)

Section MinMax.
Context {T : Type} `{Scalar T}.

Lemma clamp_unfold (v a b : Vec3.vec3 T) :
  Vec3.clamp v a b = Vec3.max a (Vec3.min v b).
Proof. reflexivity. Qed.

Lemma min_generic (a b : Vec3.vec3 T) :
  simd = false ->
  Vec3.min a b =
  Vec3.make (Vec3.sml_min (Vec3.x a) (Vec3.x b))
            (Vec3.sml_min (Vec3.y a) (Vec3.y b))
            (Vec3.sml_min (Vec3.z a) (Vec3.z b)).
Proof. intros E; unfold Vec3.min; now rewrite E. Qed.

Lemma min_simd (a b : Vec3.vec3 T) :
  simd = true ->
  Vec3.min a b =
  Vec3.make (Vec3.lane_min (Vec3.x a) (Vec3.x b))
            (Vec3.lane_min (Vec3.y a) (Vec3.y b))
            (Vec3.lane_min (Vec3.z a) (Vec3.z b)).
Proof. intros E; unfold Vec3.min; now rewrite E. Qed.

Lemma max_simd (a b : Vec3.vec3 T) :
  simd = true ->
  Vec3.max a b =
  Vec3.make (Vec3.lane_max (Vec3.x a) (Vec3.x b))
            (Vec3.lane_max (Vec3.y a) (Vec3.y b))
            (Vec3.lane_max (Vec3.z a) (Vec3.z b)).
Proof. intros E; unfold Vec3.max; now rewrite E. Qed.

(** On the generic branch the first component of [max] pairs [a.x] with
    [b.y]. *)
Lemma max_generic (a b : Vec3.vec3 T) :
  simd = false ->
  Vec3.max a b =
  Vec3.make (Vec3.sml_max (Vec3.x a) (Vec3.y b))
            (Vec3.sml_max (Vec3.y a) (Vec3.y b))
            (Vec3.sml_max (Vec3.z a) (Vec3.z b)).
Proof. intros E; unfold Vec3.max; now rewrite E. Qed.
End MinMax.

(** C7: [vec3::max] should return the component-wise maximum for every
    scalar type.  For [uvec3] values [a = (0,0,0)] and [b = (5,0,0)] the
    code returns [(0,0,0)]: the first component is [sml::max(a.x, b.y)],
    while the maximum of [a.x] and [b.x] is [5]; [min] of the same pair is
    component-wise. *)
Theorem max_generic_first_component :
  let a := Vec3.make (T := u32) 0%Z 0%Z 0%Z in
  let b := Vec3.make (T := u32) 5%Z 0%Z 0%Z in
  Vec3.max a b = Vec3.make 0%Z 0%Z 0%Z
  /\ Vec3.sml_max (Vec3.x a) (Vec3.x b) = 5%Z
  /\ Vec3.x (Vec3.min a b) = Vec3.sml_min (Vec3.x a) (Vec3.x b).
Proof. cbv zeta; repeat split. Qed.

(** ** vec3: the padding slot *)

Section Padding.
Context {T : Type} `{Scalar T}.

Lemma make_pad (a b c : T) : Vec3.pad (Vec3.make a b c) = lit 0.
Proof. reflexivity. Qed.

Lemma copy_pad (v : Vec3.vec3 T) : Vec3.pad (Vec3.copy v) = lit 0.
Proof. reflexivity. Qed.

Lemma assign_pad (this other : Vec3.vec3 T) :
  Vec3.pad (Vec3.assign this other) = Vec3.pad this.
Proof. reflexivity. Qed.

Lemma compound_generic_pad (f : T -> T -> T) (this other : Vec3.vec3 T) :
  simd = false -> Vec3.pad (Vec3.compound f this other) = Vec3.pad this.
Proof. intros E; unfold Vec3.compound; now rewrite E. Qed.

Lemma compound_simd_pad (f : T -> T -> T) (this other : Vec3.vec3 T) :
  simd = true ->
  Vec3.pad (Vec3.compound f this other) = f (Vec3.pad this) (Vec3.pad other).
Proof. intros E; unfold Vec3.compound; now rewrite E. Qed.
End Padding.

(** Sums, differences and products of two [dvec3] keep a zero padding
    slot. *)
Lemma f64_add_sub_mul_pad (a b : Vec3.vec3 float) :
  Vec3.pad a = 0%float -> Vec3.pad b = 0%float ->
  Vec3.pad (Vec3.add_assign a b) = 0%float
  /\ Vec3.pad (Vec3.sub_assign a b) = 0%float
  /\ Vec3.pad (Vec3.mul_assign a b) = 0%float.
Proof.
  intros Ha Hb; cbn; rewrite Ha, Hb; repeat split.
Qed.

(** The quotient of two [dvec3] with zero padding has [0 / 0] in the
    padding slot, whatever the components are. *)
Lemma f64_div_assign_pad (a b : Vec3.vec3 float) :
  Vec3.pad a = 0%float -> Vec3.pad b = 0%float ->
  PrimFloat.is_nan (Vec3.pad (Vec3.div_assign a b)) = true.
Proof.
  intros Ha Hb; cbn; rewrite Ha, Hb; reflexivity.
Qed.

(** C8: the padding slot should be zero after every public operation.  For
    the [dvec3] values [a = (1,2,3)] and [b = (4,5,6)], both constructed
    with a zero padding slot, [a /= b] divides all four slots: the padding
    slot becomes [0 / 0], a NaN, and compares unequal to zero. *)
Theorem div_assign_padding_nan :
  let a := Vec3.make 1%float 2%float 3%float in
  let b := Vec3.make 4%float 5%float 6%float in
  Vec3.pad a = 0%float /\ Vec3.pad b = 0%float
  /\ PrimFloat.is_nan (Vec3.pad (Vec3.div_assign a b)) = true
  /\ (Vec3.pad (Vec3.div_assign a b) =? lit 0)%S = false.
Proof. cbv zeta; vm_compute; repeat split. Qed.

(** ** Lengths *)

Lemma lengthsquared_nonneg (q : Quat.quat R) : 0 <= Quat.lengthsquared q.
Proof. cbn. nra. Qed.

Lemma length_sqr (q : Quat.quat R) :
  Quat.length q * Quat.length q = Quat.lengthsquared q.
Proof. apply sqrt_sqrt, lengthsquared_nonneg. Qed.

Lemma length_one_lengthsquared (q : Quat.quat R) :
  Quat.length q = 1 -> Quat.lengthsquared q = 1.
Proof. intros E. rewrite <- length_sqr, E. lra. Qed.

Lemma length_lengthsquared_zero (q : Quat.quat R) :
  Quat.length q = 0 <-> Quat.lengthsquared q = 0.
Proof.
  split; intros E.
  - rewrite <- length_sqr, E; lra.
  - change (Quat.length q) with (sqrt (Quat.lengthsquared q)).
    rewrite E. apply sqrt_0.
Qed.

Lemma length_unit_w : Quat.length (Quat.mk 0 0 0 1) = 1.
Proof.
  unfold Quat.length, Vec4.length; cbn.
  replace (0 * 0 + 0 * 0 + 0 * 0 + 1 * 1) with 1 by lra. apply sqrt_1.
Qed.


Lemma length_half_w : Quat.length (Quat.mk 0 0 0 (1 / 2)) = 1 / 2.
Proof.
  unfold Quat.length, Vec4.length; cbn.
  replace (0 * 0 + 0 * 0 + 0 * 0 + 1 / 2 * (1 / 2)) with (1 / 2 * (1 / 2))
    by lra.
  apply sqrt_square; lra.
Qed.

(** ** quat: equality *)

Section Equality.
Context {T : Type} `{Scalar T}.

(** Whatever the scalar type, [q == q] compares the squared length of
    [q] with the threshold, and so does [q != q]. *)
Lemma equal_self_unfold (q : Quat.quat T) :
  Quat.equal q q = (Quat.lengthsquared q >? lit 0.999999)%S.
Proof. reflexivity. Qed.

Lemma not_equal_self_unfold (q : Quat.quat T) :
  Quat.not_equal q q = (Quat.lengthsquared q <=? lit 0.999999)%S.
Proof. reflexivity. Qed.
End Equality.

(** C10: quaternion equality is not reflexive away from unit length.
    [q == q] holds exactly when the squared length of [q] exceeds 0.999999
    and [q != q] is its negation; for the zero quaternion and for every
    quaternion of length 1/2, [q == q] is false and [q != q] is true. *)
Theorem equal_not_reflexive :
  (forall q : Quat.quat R,
      (Quat.equal q q = true <-> 999999 / 1000000 < Quat.lengthsquared q)
      /\ Quat.not_equal q q = negb (Quat.equal q q))
  /\ (Quat.equal (Quat.new (T := R)) Quat.new = false
      /\ Quat.not_equal (Quat.new (T := R)) Quat.new = true)
  /\ (forall q : Quat.quat R,
         Quat.length q = 1 / 2 ->
         Quat.equal q q = false /\ Quat.not_equal q q = true).
Proof.
  split; [|split].
  - intros q; split.
    + rewrite equal_self_unfold; cbn. apply Rltb_true.
    + unfold Quat.not_equal, Quat.equal; cbn. apply Rleb_negb_Rltb.
  - split; cbn; rdecide; lra.
  - intros q Hq.
    assert (E : Quat.lengthsquared q = 1 / 4)
      by (rewrite <- length_sqr, Hq; lra).
    rewrite equal_self_unfold, not_equal_self_unfold, E.
    split; cbn; rdecide; lra.
Qed.

Lemma equal_not_reflexive_witness :
  let h := Quat.mk 0 0 0 (1 / 2) in
  Quat.length h = 1 / 2
  /\ Quat.equal h h = false /\ Quat.not_equal h h = true.
Proof.
  cbv zeta. split; [exact length_half_w|].
  exact (proj2 (proj2 equal_not_reflexive) (Quat.mk 0 0 0 (1 / 2))
           length_half_w).
Defined.

(** ** quat: invert *)

Section Invert.
Context {T : Type} `{Scalar T}.
Local Open Scope scalar_scope.

(** A zero squared length leaves the quaternion as it is. *)
Lemma invert_zero (q : Quat.quat T) :
  (Quat.lengthsquared q =? lit 0) = true -> Quat.invert q = q.
Proof. intros E; unfold Quat.invert; now rewrite E. Qed.

(** On the generic branch [xyz *= -i] scales [x], [y], [z]. *)
Lemma invert_generic (q : Quat.quat T) :
  simd = false -> (Quat.lengthsquared q =? lit 0) = false ->
  let i := lit 1 / Quat.lengthsquared q in
  Quat.invert q =
  Quat.mk (Quat.x q * - i) (Quat.y q * - i) (Quat.z q * - i) (Quat.w q * i).
Proof.
  intros E E0.
  unfold Quat.invert, Vec3.mul_assign_scalar, Vec3.compound_scalar.
  rewrite E, E0; reflexivity.
Qed.

(** On the [f32]/[f64] branch it scales the four slots under [xyz], and
    [w *= i] then scales [w] a second time. *)
Lemma invert_simd (q : Quat.quat T) :
  simd = true -> (Quat.lengthsquared q =? lit 0) = false ->
  let i := lit 1 / Quat.lengthsquared q in
  Quat.invert q =
  Quat.mk (Quat.x q * - i) (Quat.y q * - i) (Quat.z q * - i)
          (Quat.w q * - i * i).
Proof.
  intros E E0.
  unfold Quat.invert, Vec3.mul_assign_scalar, Vec3.compound_scalar.
  rewrite E, E0; reflexivity.
Qed.
End Invert.

(** Over the reals the general inverse of the spec is what the generic
    branch computes. *)
Lemma general_inverse_real (q : Quat.quat R) :
  Quat.lengthsquared q <> 0 ->
  let i := 1 / Quat.lengthsquared q in
  general_inverse q =
  Quat.mk (Quat.x q * - i) (Quat.y q * - i) (Quat.z q * - i) (Quat.w q * i).
Proof.
  intros Hq i. subst i. unfold general_inverse. cbn in *.
  apply quat_ext; cbn; field; exact Hq.
Qed.

(** C9: [invert()] should give conjugate / lengthsquared.  For the [dquat]
    [(0,0,0,2)] the general inverse is [(-0,-0,-0,0.5)], and the code
    returns [w = -0.125]: [xyz *= -i] multiplies the four slots that the
    [vec3] object [xyz] covers, [w] among them, and [w *= i] multiplies [w]
    again. *)
Theorem invert_scales_w_twice :
  let q := Quat.mk 0%float 0%float 0%float 2%float in
  Quat.invert q = Quat.mk (-0)%float (-0)%float (-0)%float (-0.125)%float
  /\ general_inverse q = Quat.mk (-0)%float (-0)%float (-0)%float 0.5%float.
Proof. cbv zeta; vm_compute; split; reflexivity. Qed.

(** ** quat: normalize *)

(** C6: [quat::normalize] should reset a quaternion whose length is at or
    below epsilon to zero, as [vec3::normalize] does, and never produce inf
    or NaN.  The zero [dquat] has length 0, and [normalize()] turns its
    four components into NaN: the body is [scale = 1 / length()] followed
    by [v *= scale], with no test of the length, so the scale is [1 / 0]
    and every component is [0 * inf]. *)
Theorem normalize_zero_nan :
  let q := Quat.new (T := float) in
  (Quat.length q <=? lit 0)%S = true
  /\ PrimFloat.is_nan (Quat.x (Quat.normalize q)) = true
  /\ PrimFloat.is_nan (Quat.y (Quat.normalize q)) = true
  /\ PrimFloat.is_nan (Quat.z (Quat.normalize q)) = true
  /\ PrimFloat.is_nan (Quat.w (Quat.normalize q)) = true.
Proof. cbv zeta; vm_compute; repeat split. Qed.

(** ** quat: euler *)

(** [euler(0, 0, 0)] is not the identity: the scalar part of the product
    formula is stored in [x]. *)
Lemma euler_zero : Quat.euler (Vec3.make 0 0 0) = Quat.mk 1 0 0 0.
Proof.
  unfold Quat.euler. cbn.
  replace (0 * (PI / 180) * (5 / 10)) with 0 by lra.
  rewrite sin_0, cos_0. apply quat_ext; cbn; lra.
Qed.

(** * Further properties of the two headers *)

(** ** vec3: cross and dot on the generic branch *)

(** Arithmetic modulo [2 ^ 32]: congruence is kept by sums, differences,
    products and negation. *)
#[local] Existing Instances
  eqm_setoid Zplus_eqm Zminus_eqm Zmult_eqm Zopp_eqm.

(** Proves an equation between two [u32] terms: every inner reduction is
    dropped, and the two integers that remain agree as polynomials. *)
Ltac wrap32_ring :=
  cbn; unfold wrap32;
  lazymatch goal with
  | |- (_ mod _)%Z = (_ mod _)%Z => idtac
  | |- (_ mod _)%Z = _ => transitivity (0 mod 2 ^ 32)%Z; [|reflexivity]
  end;
  match goal with
  | |- (?A mod ?n)%Z = (?B mod ?n)%Z => change (eqm n A B)
  end;
  rewrite ?Zmod_eqm; unfold eqm; f_equal; ring.

(** X1: on 32-bit unsigned scalars [cross] is anticommutative in each of
    its three components, negation being that of [u32], and [cross(a, a)]
    is the zero vector. *)
Theorem cross_anticommutative (a b : Vec3.vec3 u32) :
  (Vec3.x (Vec3.cross b a) = (- Vec3.x (Vec3.cross a b))%S
   /\ Vec3.y (Vec3.cross b a) = (- Vec3.y (Vec3.cross a b))%S
   /\ Vec3.z (Vec3.cross b a) = (- Vec3.z (Vec3.cross a b))%S)
  /\ Vec3.cross a a = Vec3.new.
Proof.
  destruct a as [ax ay az ap], b as [bx b_y bz bp].
  split; [repeat split; wrap32_ring|].
  apply vec3_ext; try reflexivity; wrap32_ring.
Qed.

(** X2: on 32-bit unsigned scalars, where [dot] takes its generic branch,
    [cross(a, b)] is orthogonal to [a] and to [b]: both dot products are
    0, wrap-around included. *)
Theorem cross_orthogonal (a b : Vec3.vec3 u32) :
  Vec3.dot a (Vec3.cross a b) = Some (lit 0)
  /\ Vec3.dot b (Vec3.cross a b) = Some (lit 0).
Proof.
  destruct a as [ax ay az ap], b as [bx b_y bz bp].
  split; unfold Vec3.dot; cbn [simd u32_scalar]; f_equal; wrap32_ring.
Qed.

(** X3: on 32-bit unsigned scalars [dot] returns a value, it is
    commutative, and [v.dot(v)] is [lengthsquared()]. *)
Theorem dot_commutative (a b : Vec3.vec3 u32) :
  Vec3.dot a b
  = Some (Vec3.x a * Vec3.x b + Vec3.y a * Vec3.y b + Vec3.z a * Vec3.z b)%S
  /\ Vec3.dot a b = Vec3.dot b a
  /\ Vec3.dot a a = Some (Vec3.lengthsquared a).
Proof.
  destruct a as [ax ay az ap], b as [bx b_y bz bp].
  split; [reflexivity|]. split; [|reflexivity].
  unfold Vec3.dot; cbn [simd u32_scalar]; f_equal; wrap32_ring.
Qed.

(** ** vec3: equality *)

Lemma testc_diag (m : list Z) : Vec3.testc m m = true.
Proof.
  unfold Vec3.testc. induction m as [|a m IH]; [reflexivity|].
  cbn. rewrite Z.ldiff_diag. exact IH.
Qed.

(** X4: on the [f32]/[f64] branch [operator ==] and [operator !=] both
    return true for every pair of vectors: the comparison mask is tested
    against itself, and [(~m) & m] has no bit set. *)
Theorem equal_simd_always (T : Type) (S : Scalar T) (a b : Vec3.vec3 T) :
  simd = true -> Vec3.equal a b = true /\ Vec3.not_equal a b = true.
Proof.
  intros E. unfold Vec3.equal, Vec3.not_equal. rewrite E.
  split; apply testc_diag.
Qed.

Lemma equal_simd_always_witness :
  let a := Vec3.make 1%float 2%float 3%float in
  let b := Vec3.make 4%float 5%float 6%float in
  simd (T := float) = true
  /\ Vec3.equal a b = true /\ Vec3.not_equal a b = true.
Proof.
  cbv zeta. split; [reflexivity|].
  exact (equal_simd_always float f64_scalar
           (Vec3.make 1%float 2%float 3%float)
           (Vec3.make 4%float 5%float 6%float) eq_refl).
Defined.

(** X5: on the generic branch [operator ==] holds exactly when the three
    components agree, the padding slot is not looked at, and [operator !=]
    is its negation. *)
Theorem equal_generic_exact (a b : Vec3.vec3 u32) :
  (Vec3.equal a b = true <->
   Vec3.x a = Vec3.x b /\ Vec3.y a = Vec3.y b /\ Vec3.z a = Vec3.z b)
  /\ Vec3.not_equal a b = negb (Vec3.equal a b).
Proof.
  unfold Vec3.equal, Vec3.not_equal. cbn. split.
  - rewrite !andb_true_iff, !Z.eqb_eq. tauto.
  - rewrite !negb_andb. reflexivity.
Qed.

(** ** vec3: normalize *)

(** X8: in IEEE binary64, for every epsilon that is not negative,
    [normalize()] on a [dvec3] whose three components are zeros of either
    sign takes the [set(0, 0, 0)] path: the components become [+0], the
    padding slot stays, no division takes place and no NaN appears. *)
Theorem normalize_zero_f64 (eps : float) (v : Vec3.vec3 float) :
  PrimFloat.ltb eps 0 = false ->
  (Vec3.x v = 0%float \/ Vec3.x v = (-0)%float) ->
  (Vec3.y v = 0%float \/ Vec3.y v = (-0)%float) ->
  (Vec3.z v = 0%float \/ Vec3.z v = (-0)%float) ->
  Vec3.normalize eps v = Vec3.mk 0%float 0%float 0%float (Vec3.pad v).
Proof.
  intros E X Y Z. destruct v as [vx vy vz vp]. cbn in X, Y, Z.
  unfold Vec3.normalize.
  assert (L : to_float (Vec3.length (Vec3.mk vx vy vz vp)) = 0%float)
    by (destruct X, Y, Z; subst; reflexivity).
  rewrite L. change (ltb eps 0%float) with (PrimFloat.ltb eps 0).
  rewrite E. reflexivity.
Qed.

Lemma normalize_zero_f64_witness :
  let eps := 0x1p-20%float in
  let v := Vec3.mk (-0)%float 0%float (-0)%float 7%float in
  PrimFloat.ltb eps 0 = false
  /\ Vec3.normalize eps v = Vec3.mk 0%float 0%float 0%float 7%float.
Proof.
  cbv zeta. split; [reflexivity|].
  exact (normalize_zero_f64 0x1p-20%float
           (Vec3.mk (-0)%float 0%float (-0)%float 7%float)
           eq_refl (or_intror eq_refl) (or_introl eq_refl)
           (or_intror eq_refl)).
Defined.

(** ** vec3: min, max and clamp on the vectorised branch *)

Lemma lane_min_Rmin (a b : R) : Vec3.lane_min a b = Rmin a b.
Proof.
  unfold Vec3.lane_min, Rmin. cbn. unfold Rltb.
  destruct (Rlt_dec a b), (Rle_dec a b); try reflexivity; lra.
Qed.

Lemma lane_max_Rmax (a b : R) : Vec3.lane_max a b = Rmax a b.
Proof.
  unfold Vec3.lane_max, Rmax. cbn. unfold Rltb.
  destruct (Rlt_dec b a), (Rle_dec a b); try reflexivity; lra.
Qed.

Lemma clamp_lane_bounds (a v b : R) :
  a <= b -> a <= Rmax a (Rmin v b) <= b.
Proof.
  intros H. unfold Rmin. destruct (Rle_dec v b); unfold Rmax;
    match goal with
    | |- context [Rle_dec ?p ?q] => destruct (Rle_dec p q)
    end; lra.
Qed.

Lemma clamp_lane_inside (a v b : R) :
  a <= v <= b -> Rmax a (Rmin v b) = v.
Proof.
  intros H. unfold Rmin. destruct (Rle_dec v b); [|lra].
  unfold Rmax. destruct (Rle_dec a v); lra.
Qed.

(** X9: on the [f32]/[f64] branch, over the reals, [min] and [max] are the
    component-wise minimum and maximum, with a zero padding slot. *)
Theorem min_max_componentwise (a b : Vec3.vec3 R) :
  Vec3.min a b =
  Vec3.make (Rmin (Vec3.x a) (Vec3.x b)) (Rmin (Vec3.y a) (Vec3.y b))
            (Rmin (Vec3.z a) (Vec3.z b))
  /\ Vec3.max a b =
     Vec3.make (Rmax (Vec3.x a) (Vec3.x b)) (Rmax (Vec3.y a) (Vec3.y b))
               (Rmax (Vec3.z a) (Vec3.z b)).
Proof.
  split.
  - rewrite min_simd by reflexivity. now rewrite !lane_min_Rmin.
  - rewrite max_simd by reflexivity. now rewrite !lane_max_Rmax.
Qed.

(** X10: on that branch, when [a] is below [b] in every component,
    [clamp(v, a, b)] lies between [a] and [b] in every component, and a
    [v] that already lies between them comes back unchanged. *)
Theorem clamp_within_bounds (v a b : Vec3.vec3 R) :
  Vec3.x a <= Vec3.x b -> Vec3.y a <= Vec3.y b -> Vec3.z a <= Vec3.z b ->
  let c := Vec3.clamp v a b in
  (Vec3.x a <= Vec3.x c <= Vec3.x b
   /\ Vec3.y a <= Vec3.y c <= Vec3.y b
   /\ Vec3.z a <= Vec3.z c <= Vec3.z b)
  /\ (Vec3.x a <= Vec3.x v <= Vec3.x b ->
      Vec3.y a <= Vec3.y v <= Vec3.y b ->
      Vec3.z a <= Vec3.z v <= Vec3.z b -> c = Vec3.copy v).
Proof.
  intros X Y Z c. subst c. unfold Vec3.clamp.
  destruct (min_max_componentwise a (Vec3.min v b)) as [_ ->].
  destruct (min_max_componentwise v b) as [-> _]. cbn.
  split.
  - repeat split; now apply clamp_lane_bounds.
  - intros Vx Vy Vz.
    rewrite !clamp_lane_inside by assumption. reflexivity.
Qed.

Lemma clamp_within_bounds_witness :
  let v := Vec3.make 5 (-5) (1 / 2) in
  let a := Vec3.make 0 0 0 in
  let b := Vec3.make 1 1 1 in
  (Vec3.x a <= Vec3.x b /\ Vec3.y a <= Vec3.y b /\ Vec3.z a <= Vec3.z b)
  /\ Vec3.x a <= Vec3.x (Vec3.clamp v a b) <= Vec3.x b.
Proof.
  cbv zeta.
  assert (X : Vec3.x (Vec3.make 0 0 0) <= Vec3.x (Vec3.make 1 1 1))
    by (cbn; lra).
  assert (Y : Vec3.y (Vec3.make 0 0 0) <= Vec3.y (Vec3.make 1 1 1))
    by (cbn; lra).
  assert (Z : Vec3.z (Vec3.make 0 0 0) <= Vec3.z (Vec3.make 1 1 1))
    by (cbn; lra).
  split; [repeat split; assumption|].
  exact (proj1 (proj1 (clamp_within_bounds (Vec3.make 5 (-5) (1 / 2))
                         (Vec3.make 0 0 0) (Vec3.make 1 1 1) X Y Z))).
Defined.

(** ** quat: conjugate *)

Lemma conjugate_components (q : Quat.quat R) :
  Quat.conjugate q
  = Quat.mk (- Quat.x q) (- Quat.y q) (- Quat.z q) (Quat.w q).
Proof. reflexivity. Qed.

(** X16: [conjugate()] is an involution and keeps the squared length. *)
Theorem conjugate_involutive (q : Quat.quat R) :
  Quat.conjugate (Quat.conjugate q) = q
  /\ Quat.lengthsquared (Quat.conjugate q) = Quat.lengthsquared q.
Proof.
  split.
  - rewrite !conjugate_components. apply quat_ext; cbn; ring.
  - rewrite conjugate_components. cbn. ring.
Qed.

(** ** quat: rotating a vector *)







(** X25: a quaternion and its negation rotate every vector alike, yet for
    a unit quaternion [==] tells the two apart. *)
Theorem opposite_same_rotation (q : Quat.quat R) (v : Vec3.vec3 R) :
  let n := Quat.mk (- Quat.x q) (- Quat.y q) (- Quat.z q) (- Quat.w q) in
  Quat.rotate n v = Quat.rotate q v
  /\ (Quat.length q = 1 ->
      Quat.equal q n = false /\ Quat.not_equal q n = true).
Proof.
  intros n. subst n. split.
  - apply vec3_ext; cbn; ring.
  - intros L. apply length_one_lengthsquared in L. cbn in L.
    unfold Quat.equal, Quat.not_equal. cbn. split; rdecide; nra.
Qed.

Lemma opposite_same_rotation_witness :
  let q := Quat.mk 0 0 0 1 in
  Quat.length q = 1
  /\ Quat.equal q (Quat.mk (- 0) (- 0) (- 0) (- 1)) = false.
Proof.
  cbv zeta. split; [exact length_unit_w|].
  exact (proj1 (proj2 (opposite_same_rotation (Quat.mk 0 0 0 1)
                         (Vec3.make 0 0 1)) length_unit_w)).
Defined.

(** ** quat: unit results *)

